(** * drf_httpsig.authentication: a shallow embedding of [SignatureAuthentication.authenticate]

    The Python module is modelled over a tiny model of the Python runtime:
    - Python values that the code tests for truthiness ([pyval]);
    - exception objects, each with an object identity ([exn_oid]), a class name
      and a message; raising an object does not copy it;
    - a state/exception monad [M] whose state is the next free object identity,
      so that every allocation of a fresh exception object is visible;
    - at a call from Python ([call]), the [__traceback__] of the objects, which
      CPython extends when an exception leaves a frame.

    httpsig's [utils.parse_authorization_header] is modelled down to its
    parsing of the parameter string. The other collaborators the module only
    calls (httpsig's [HeaderVerifier(...).verify()] and the subclass hooks
    [fetch_user_data] and [fetch_on_behalf_of_user]) and that parameter
    parsing are Section variables: arbitrary functions; the first three may
    also raise. The wall clock
    [time.time()] is the argument [now] (a rational: a Python float is a dyadic
    rational and [float > int] compares exactly). *)

From Stdlib Require Import String Ascii DecimalString HexString List Bool ZArith QArith Lia.
Import ListNotations.
Open Scope string_scope.

Module Py.

(** Python values, as far as the module inspects them (truthiness). *)
Inductive pyval : Type :=
| PNone
| PBool (b : bool)
| PInt (z : Z)
| PStr (s : string)
| PObj (oid : nat).

Definition truthy (v : pyval) : bool :=
  match v with
  | PNone => false
  | PBool b => b
  | PInt z => negb (Z.eqb z 0)
  | PStr s => negb (String.eqb s "")
  | PObj _ => true
  end.

(** An exception object: identity, class and message. *)
Record exn : Type := mkExn { exn_oid : nat; exn_cls : string; exn_msg : string }.

Inductive result (A : Type) : Type :=
| Ok (a : A)
| Err (e : exn).
Arguments Ok {A} a.
Arguments Err {A} e.

(** State: the next free object identity. *)
Definition M (A : Type) : Type := nat -> result A * nat.

Definition ret {A} (a : A) : M A := fun h => (Ok a, h).

Definition bind {A B} (m : M A) (k : A -> M B) : M B :=
  fun h => match m h with
           | (Ok a, h') => k a h'
           | (Err e, h') => (Err e, h')
           end.

Definition raise {A} (e : exn) : M A := fun h => (Err e, h).

(** A callback result, with no allocation visible to this module. *)
Definition lift {A} (r : result A) : M A := fun h => (r, h).

(** [cls(msg)]: a freshly allocated exception object. *)
Definition alloc_exn (cls msg : string) : M exn :=
  fun h => (Ok (mkExn h cls msg), S h).

(** [try: m except cls: handler] *)
Definition try_except {A} (cls : string) (m : M A) (handler : M A) : M A :=
  fun h => match m h with
           | (Err e, h') => if String.eqb (exn_cls e) cls then handler h' else (Err e, h')
           | r => r
           end.

(** The [__traceback__] attribute of the objects, as a caller sees it. When an
    exception unwinds a frame, CPython appends an entry for that frame to the
    traceback of the exception object; raising an object that already has a
    traceback extends it. [tb_len st oid] is the number of entries of the
    object [oid] ([0]: [None]). *)
Record pystate : Type := mkPyState { next_oid : nat; tb_len : nat -> nat }.

Definition add_tb_entry (oid : nat) (st : pystate) : pystate :=
  mkPyState (next_oid st)
    (fun o => if Nat.eqb o oid then S (tb_len st o) else tb_len st o).

(** A Python call of the function whose body is [m]: an exception that leaves
    the function gets the entry of its frame. (The entries added inside the
    callees, and those of exceptions caught in the body, are not tracked.) *)
Definition call {A} (m : M A) (st : pystate) : result A * pystate :=
  match m (next_oid st) with
  | (Ok a, h') => (Ok a, mkPyState h' (tb_len st))
  | (Err e, h') => (Err e, add_tb_entry (exn_oid e) (mkPyState h' (tb_len st)))
  end.

Lemma bind_ret {A B} (a : A) (k : A -> M B) : bind (ret a) k = k a.
Proof. reflexivity. Qed.

Lemma bind_lift_ok {A B} (a : A) (k : A -> M B) : bind (lift (Ok a)) k = k a.
Proof. reflexivity. Qed.

Lemma bind_lift_err {A B} (e : exn) (k : A -> M B) : bind (lift (Err e)) k = raise e.
Proof. reflexivity. Qed.

Lemma bind_run {A B} (m : M A) (k : A -> M B) h a h' :
  m h = (Ok a, h') -> bind m k h = k a h'.
Proof. intros E. unfold bind. rewrite E. reflexivity. Qed.

Lemma bind_run_err {A B} (m : M A) (k : A -> M B) h e h' :
  m h = (Err e, h') -> bind m k h = (Err e, h').
Proof. intros E. unfold bind. rewrite E. reflexivity. Qed.

End Py.

Import Py.

Notation "x <- m1 ;; m2" := (bind m1 (fun x => m2))
  (at level 61, m1 at next level, right associativity).

(** ** Strings *)

(** [str.lower] on one Latin-1 character (header values are Latin-1). *)
Definition lower_char (c : ascii) : ascii :=
  let n := nat_of_ascii c in
  if ((Nat.leb 65 n) && (Nat.leb n 90)) || ((Nat.leb 192 n) && (Nat.leb n 222) && negb (Nat.eqb n 215))
  then ascii_of_nat (n + 32)%nat else c.

Fixpoint lower (s : string) : string :=
  match s with
  | EmptyString => EmptyString
  | String c s' => String (lower_char c) (lower s')
  end.

(** [str.isspace] on Latin-1 characters. *)
Definition is_space (c : ascii) : bool :=
  let n := nat_of_ascii c in
  ((Nat.leb 9 n) && (Nat.leb n 13)) || ((Nat.leb 28 n) && (Nat.leb n 32)) || (Nat.eqb n 133) || (Nat.eqb n 160).

Definition is_digit (c : ascii) : bool :=
  let n := nat_of_ascii c in (Nat.leb 48 n) && (Nat.leb n 57).

Fixpoint strip_left (l : list ascii) : list ascii :=
  match l with
  | c :: l' => if is_space c then strip_left l' else l
  | [] => []
  end.

Definition strip (l : list ascii) : list ascii := rev (strip_left (rev (strip_left l))).

(** Digits of a base-10 literal, with single underscores allowed between digits;
    accumulator [acc]; [None] when the literal is malformed. *)
Fixpoint digits_value (acc : Z) (prev_digit : bool) (l : list ascii) : option Z :=
  match l with
  | [] => if prev_digit then Some acc else None
  | c :: l' =>
      if is_digit c then digits_value (acc * 10 + Z.of_nat (nat_of_ascii c - 48))%Z true l'
      else if (Nat.eqb (nat_of_ascii c) 95) && prev_digit then
        match l' with
        | d :: _ => if is_digit d then digits_value acc false l' else None
        | [] => None
        end
      else None
  end.

(** The string accepted by [int(s)] (base 10) and its value. *)
Definition parse_int (s : string) : option Z :=
  match strip (list_ascii_of_string s) with
  | c :: l => if Nat.eqb (nat_of_ascii c) 45 then option_map Z.opp (digits_value 0 false l)
              else if Nat.eqb (nat_of_ascii c) 43 then digits_value 0 false l
              else digits_value 0 false (c :: l)
  | [] => None
  end.

(** The message of the [ValueError] raised by [int(s)]: the value is shown as
    its [repr], here with single quotes (exact for values without quote or
    backslash characters). *)
Definition int_value_error_msg (s : string) : string :=
  "invalid literal for int() with base 10: '" ++ s ++ "'".

(** [int(v)] for [v] a header value or [None]. *)
Definition py_int (v : option string) : M Z :=
  match v with
  | None =>
      e <- alloc_exn "TypeError"
             "int() argument must be a string, a bytes-like object or a number, not 'NoneType'";;
      raise e
  | Some s =>
      match parse_int s with
      | Some z => ret z
      | None =>
          e <- alloc_exn "ValueError" (int_value_error_msg s);;
          raise e
      end
  end.

(** ** Requests *)

(** A case-insensitive mapping (Django's [HttpHeaders], requests'
    [CaseInsensitiveDict]) as an association list. *)
Definition ci_get (m : list (string * string)) (k : string) : option string :=
  option_map snd (find (fun kv => String.eqb (lower (fst kv)) (lower k)) m).

Definition ci_in (m : list (string * string)) (k : string) : bool :=
  match ci_get m k with Some _ => true | None => false end.

Record request : Type := mkRequest {
  headers : list (string * string);   (** [request.headers] *)
  req_method : string;                 (** [request.method] *)
  full_path : string                   (** [request.get_full_path()] *)
}.

(** DRF's [authentication.get_authorization_header]: the header value, or
    [b''] when absent. *)
Definition get_authorization_header (req : request) : string :=
  match ci_get (headers req) "Authorization" with
  | Some s => s
  | None => ""
  end.

(** [fields[k]] *)
Definition getitem (fields : list (string * string)) (k : string) : M string :=
  match ci_get fields k with
  | Some v => ret v
  | None => e <- alloc_exn "KeyError" k;; raise e
  end.

(** ** The module *)


Definition FAILED : exn := mkExn 0 "AuthenticationFailed" "Invalid signature.".

(** The state after module load: [FAILED.__traceback__] is [None], as is every
    other object's. *)
Definition after_module_load : pystate := mkPyState 1 (fun _ => 0%nat).

Definition ON_BEHALF_MSG : string := "On behalf of user was not found.".

Definition required_fields : list string := ["keyid"; "algorithm"; "signature"].

(** [len(set(("keyid", "algorithm", "signature")) - set(fields.keys())) > 0] *)
Definition missing_required (fields : list (string * string)) : bool :=
  existsb (fun r => negb (existsb (String.eqb r) (map fst fields))) required_fields.

(** [time.time() > expires] *)
Definition time_gt (now : Q) (z : Z) : bool := negb (Qle_bool now (inject_Z z)).

(** Truthiness of [expires] (either [None] or an int). *)
Definition expires_truthy (e : option Z) : bool :=
  match e with Some z => negb (Z.eqb z 0) | None => false end.

(** ** httpsig's [utils.parse_authorization_header]

    DRF hands it the header as [bytes]; it first runs [header.decode("ascii")]
    ("HTTP headers cannot be Unicode"), which raises [UnicodeDecodeError] at
    the first byte of value 128 or more. Then [auth = header.split(" ", 1)]:
    the scheme is [auth[0]], and the parameters are parsed from [auth[1]] when
    it exists and is non-empty, [{}] otherwise. The parsing of the parameter
    string ([parse_http_list], keeping the [key=value] items, unquoting) is the
    argument [parse_params]; it does not raise. *)

(** The position and value of the first byte that is not ASCII. *)
Fixpoint first_non_ascii (i : nat) (s : string) : option (nat * nat) :=
  match s with
  | EmptyString => None
  | String c s' =>
      if Nat.ltb (nat_of_ascii c) 128 then first_non_ascii (S i) s'
      else Some (i, nat_of_ascii c)
  end.

Definition is_ascii (s : string) : bool :=
  match first_non_ascii 0 s with None => true | Some _ => false end.

(** The message of the [UnicodeDecodeError] raised by [header.decode("ascii")]. *)
Definition ascii_decode_error_msg (s : string) : string :=
  match first_non_ascii 0 s with
  | Some (i, b) =>
      "'ascii' codec can't decode byte " ++ HexString.of_nat b ++ " in position "
        ++ NilZero.string_of_uint (Nat.to_uint i) ++ ": ordinal not in range(128)"
  | None => ""
  end.

(** [s.split(" ", 1)]: the text before the first space and the text after it
    ([""] when there is no space). *)
Fixpoint split_first_space (s : string) : string * string :=
  match s with
  | EmptyString => ("", "")
  | String c s' =>
      if Ascii.eqb c " " then ("", s')
      else let '(a, b) := split_first_space s' in (String c a, b)
  end.

(** [None] when the decode raises; otherwise [(auth[0], values)]. *)
Definition parse_authorization_header
    (parse_params : string -> list (string * string)) (header : string)
    : option (string * list (string * string)) :=
  if is_ascii header then
    let '(scheme, rest) := split_first_space header in
    Some (scheme, if String.eqb rest "" then [] else parse_params rest)
  else None.

Section Authentication.

(** httpsig's parsing of the parameter string (see above). *)
Variable parse_params : string -> list (string * string).
(** [self.fetch_user_data(keyId, algorithm=...)]: the pair (user, secret). *)
Variable fetch_user_data : string -> string -> result (pyval * pyval).
(** [self.fetch_on_behalf_of_user(user_id)] *)
Variable fetch_on_behalf_of_user : string -> result pyval.
(** [HeaderVerifier(headers, secret, required_headers=..., method=..., path=...).verify()] *)
Variable header_verify :
  list (string * string) -> pyval -> list string -> string -> string -> result bool.
(** [self.required_headers] *)
Variable required_headers : list string.

(** [SignatureAuthentication.authenticate(request)]: [None], or
    [(user, keyid)] with [keyid] possibly [None]. *)
Definition authenticate (now : Q) (req : request) : M (option (pyval * option string)) :=
  let auth_header := get_authorization_header req in
  if String.eqb auth_header "" then ret None else
  match parse_authorization_header parse_params auth_header with
  | None =>
      e <- alloc_exn "UnicodeDecodeError" (ascii_decode_error_msg auth_header);;
      raise e
  | Some (method, fields) =>
  if negb (String.eqb (lower method) "signature") then ret None else
  if Nat.eqb (length fields) 0 then raise FAILED else
  if missing_required fields then raise FAILED else
  keyid <- getitem fields "keyid";;
  algorithm <- getitem fields "algorithm";;
  us <- lift (fetch_user_data keyid algorithm);;
  let '(user, secret) := us in
  if negb (truthy user && truthy secret) then raise FAILED else
  ok <- lift (header_verify (headers req) secret required_headers
                (lower (req_method req)) (full_path req));;
  if negb ok then raise FAILED else
  expires <- try_except "TypeError"
               (z <- py_int (ci_get (headers req) "(expires)");; ret (Some z))
               (ret None);;
  if expires_truthy expires &&
       match expires with Some z => time_gt now z | None => false end
  then raise FAILED else
  match ci_get (headers req) "On-Behalf-Of" with
  | Some obo =>
      u <- lift (fetch_on_behalf_of_user obo);;
      if negb (truthy u) then
        (e <- alloc_exn "AuthenticationFailed" ON_BEHALF_MSG;; raise e)
      else ret (Some (u, None))
  | None => ret (Some (user, Some keyid))
  end
  end.

End Authentication.

(** ** The other members of [SignatureAuthentication] *)

(** The class defaults [www_authenticate_realm = "api"] and
    [required_headers = ["(request-target)", "date"]]. *)
Definition www_authenticate_realm_default : string := "api".
Definition required_headers_default : list string := ["(request-target)"; "date"].

(** The double-quote character. *)
Definition dq : string := String (ascii_of_nat 34) EmptyString.

(** [sep.join(l)] *)
Fixpoint py_join (sep : string) (l : list string) : string :=
  match l with
  | [] => ""
  | [x] => x
  | x :: l' => x ++ sep ++ py_join sep l'
  end.

(** [s.split(" ")]: every single space separates, empty pieces are kept;
    [cur] is the piece being read. *)
Fixpoint split_space_from (cur s : string) : list string :=
  match s with
  | EmptyString => [cur]
  | String c s' =>
      if Ascii.eqb c " " then cur :: split_space_from "" s'
      else split_space_from (cur ++ String c EmptyString) s'
  end.

Definition py_split_space (s : string) : list string := split_space_from "" s.

(** [authenticate_header(self, request)]:
    [h = " ".join(self.required_headers)] and
    ['Signature realm="%s",headers="%s"' % (self.www_authenticate_realm, h)]. *)
Definition authenticate_header (www_authenticate_realm : string)
    (required_headers : list string) : string :=
  let h := py_join " " required_headers in
  "Signature realm=" ++ dq ++ www_authenticate_realm ++ dq ++
  ",headers=" ++ dq ++ h ++ dq.

(** The base class's hooks: [raise NotImplementedError()]; [e] is the raised
    object. *)
Definition base_fetch_user_data (e : exn) (keyId algorithm : string)
    : result (pyval * pyval) := Err e.

Definition base_fetch_on_behalf_of_user (e : exn) (user_id : string) : result pyval :=
  Err e.

(** ** A concrete deployment, used by the examples and witnesses below *)
Module Scenario.

Definition full_fields : list (string * string) :=
  [("keyid", "some-key"); ("algorithm", "hmac-sha256");
   ("headers", "(request-target) date"); ("signature", "c2lnbmF0dXJl")].

(** A stand-in for the parameter parsing: three sample parameter strings are
    recognised. *)
Definition parse_params (rest : string) : list (string * string) :=
  if String.eqb rest "full" then full_fields
  else if String.eqb rest "nokey" then
    [("algorithm", "hmac-sha256"); ("signature", "c2lnbmF0dXJl")]
  else if String.eqb rest "badkey" then
    [("keyid", "other-key"); ("algorithm", "hmac-sha256"); ("signature", "c2lnbmF0dXJl")]
  else [].

Definition user : pyval := PObj 7.
Definition impersonated : pyval := PObj 42.

Definition fetch_user_data (keyid alg : string) : result (pyval * pyval) :=
  if String.eqb keyid "some-key" then Ok (user, PStr "my secret string")
  else Ok (PNone, PNone).

(** The test suite's hook: an unknown key raises its own exception. *)
Definition bad_key_exn : exn := mkExn 99 "AuthenticationFailed" "Bad key ID".

Definition fetch_user_data_raising (keyid alg : string) : result (pyval * pyval) :=
  if String.eqb keyid "some-key" then Ok (user, PStr "my secret string")
  else Err bad_key_exn.

Definition fetch_on_behalf_of_user (id : string) : result pyval :=
  if String.eqb id "42" then Ok impersonated else Ok PNone.

(** Verification succeeds exactly when the request carries [X-Valid]. *)
Definition header_verify (hs : list (string * string)) (secret : pyval)
    (req_h : list string) (m p : string) : result bool :=
  Ok (ci_in hs "X-Valid").

Definition required_headers : list string := ["(request-target)"; "date"].

Definition req (extra : list (string * string)) (auth : string) : request :=
  mkRequest (("Authorization", auth) :: extra) "GET" "/packages/measures/".

Definition now : Q := inject_Z 1700000000.

Definition run (fud : string -> string -> result (pyval * pyval)) (r : request) :=
  authenticate parse_params fud fetch_on_behalf_of_user header_verify required_headers now r 1%nat.

(** [authenticate(r)] called from Python, with the default hook. *)
Definition call_run (r : request) (st : pystate) :=
  call (authenticate parse_params fetch_user_data fetch_on_behalf_of_user header_verify
          required_headers now r) st.


End Scenario.

(** ** Sanity checks on the embedding *)

Example parse_int_examples :
  parse_int " 1577847600 " = Some 1577847600%Z /\ parse_int "-0" = Some 0%Z /\
  parse_int "1_000" = Some 1000%Z /\ parse_int "1__0" = None /\
  parse_int "soon" = None /\ parse_int "" = None.
Proof. vm_compute. repeat split. Qed.

Example run_no_header :
  Scenario.run Scenario.fetch_user_data (mkRequest [] "GET" "/") = (Ok None, 1%nat).
Proof. reflexivity. Qed.

Example run_foreign :
  Scenario.run Scenario.fetch_user_data (Scenario.req [] "Basic full") = (Ok None, 1%nat).
Proof. reflexivity. Qed.

Example run_valid :
  Scenario.run Scenario.fetch_user_data (Scenario.req [("X-Valid", "1")] "SIGNATURE full")
  = (Ok (Some (Scenario.user, Some "some-key")), 2%nat).
Proof. reflexivity. Qed.

Example run_invalid :
  Scenario.run Scenario.fetch_user_data (Scenario.req [] "Signature full") = (Err FAILED, 1%nat).
Proof. reflexivity. Qed.

Example run_expired :
  Scenario.run Scenario.fetch_user_data
    (Scenario.req [("X-Valid", "1"); ("(expires)", "1577847600")] "Signature full")
  = (Err FAILED, 1%nat).
Proof. reflexivity. Qed.

Example run_on_behalf :
  Scenario.run Scenario.fetch_user_data
    (Scenario.req [("X-Valid", "1"); ("On-Behalf-Of", "42")] "Signature full")
  = (Ok (Some (Scenario.impersonated, None)), 2%nat).
Proof. reflexivity. Qed.

(** ** Properties of [authenticate] *)

(** The header is a [Signature] credential carrying all mandatory parameters,
    whose [keyid] and [algorithm] are [keyid] and [alg]. *)
Definition signature_credential
    (parse_params : string -> list (string * string))
    (req : request) (keyid alg : string) : Prop :=
  exists scheme fields,
    get_authorization_header req <> "" /\
    parse_authorization_header parse_params (get_authorization_header req) = Some (scheme, fields) /\
    lower scheme = lower "Signature" /\
    fields <> [] /\
    missing_required fields = false /\
    ci_get fields "keyid" = Some keyid /\
    ci_get fields "algorithm" = Some alg.

(** The [(expires)] check lets the request through: the header is absent, or
    it is an integer that is [0] or not in the past. *)
Definition expiry_passes (now : Q) (req : request) : Prop :=
  ci_get (headers req) "(expires)" = None \/
  exists s z, ci_get (headers req) "(expires)" = Some s /\ parse_int s = Some z /\
              (z = 0%Z \/ time_gt now z = false).




Lemma try_expires_absent hs h :
  ci_get hs "(expires)" = None ->
  try_except "TypeError" (z <- py_int (ci_get hs "(expires)");; ret (Some z)) (ret None) h
  = (Ok None, S h).
Proof. intros E. rewrite E. reflexivity. Qed.

Lemma try_expires_int hs s z h :
  ci_get hs "(expires)" = Some s -> parse_int s = Some z ->
  try_except "TypeError" (z <- py_int (ci_get hs "(expires)");; ret (Some z)) (ret None) h
  = (Ok (Some z), h).
Proof. intros E P. rewrite E. unfold py_int. rewrite P. reflexivity. Qed.

Lemma try_expires_not_int hs s h :
  ci_get hs "(expires)" = Some s -> parse_int s = None ->
  try_except "TypeError" (z <- py_int (ci_get hs "(expires)");; ret (Some z)) (ret None) h
  = (Err (mkExn h "ValueError" (int_value_error_msg s)), S h).
Proof. intros E P. rewrite E. unfold py_int. rewrite P. reflexivity. Qed.

(** Runs [authenticate] up to the credential lookup for a [Signature]
    credential. *)
Ltac enter_credential H :=
  let scheme := fresh "scheme" in
  let fields := fresh "fields" in
  let Hne := fresh "Hne" in let Hp := fresh "Hp" in let Hs := fresh "Hs" in
  let Hf := fresh "Hf" in let Hm := fresh "Hm" in
  let Hk := fresh "Hk" in let Ha := fresh "Ha" in
  destruct H as (scheme & fields & Hne & Hp & Hs & Hf & Hm & Hk & Ha);
  unfold authenticate; cbv zeta;
  apply String.eqb_neq in Hne; rewrite Hne, Hp; change (lower "Signature") with "signature" in Hs; rewrite Hs;
  destruct fields as [|? ?]; [congruence|];
  rewrite Hm; unfold getitem; rewrite Hk, Ha; simpl; rewrite !bind_ret.

Lemma try_expires_passes now req h :
  expiry_passes now req ->
  exists ex h',
    try_except "TypeError"
      (z <- py_int (ci_get (headers req) "(expires)");; ret (Some z)) (ret None) h
    = (Ok ex, h') /\
    (expires_truthy ex && match ex with Some z => time_gt now z | None => false end)
    = false /\
    (h <= h')%nat.
Proof.
  intros [E|(s & z & E & P & Hz)].
  - exists None, (S h). split; [apply try_expires_absent; exact E|]. split; [reflexivity|lia].
  - exists (Some z), h. split; [exact (try_expires_int _ s z h E P)|]. split; [|lia].
    destruct Hz as [->|Hz]; [reflexivity|]. rewrite Hz. apply andb_false_r.
Qed.

(** Runs [authenticate] through a successful credential lookup and
    verification. *)
Ltac pass_verification Hc Hu Ht Hv :=
  enter_credential Hc; rewrite Hu, bind_lift_ok; simpl; rewrite Ht; simpl;
  rewrite Hv, bind_lift_ok; simpl.

(** Runs it further through an [(expires)] check that lets it pass. *)
Ltac pass_expiry now req h Hx :=
  let ex := fresh "ex" in let h' := fresh "h'" in
  let Hrun := fresh "Hrun" in let Hok := fresh "Hok" in let Hle := fresh "Hle" in
  destruct (try_expires_passes now req h Hx) as (ex & h' & Hrun & Hok & Hle);
  rewrite (bind_run _ _ _ _ _ Hrun); cbv beta; rewrite Hok.

Section Proofs.

Variable parse_params : string -> list (string * string).
Variable fetch_user_data : string -> string -> result (pyval * pyval).
Variable fetch_on_behalf_of_user : string -> result pyval.
Variable header_verify :
  list (string * string) -> pyval -> list string -> string -> string -> result bool.
Variable required_headers : list string.




(** C5: for a [Signature] credential whose lookup returns a pair, a falsy user
    or secret is rejected with [FAILED]; with both truthy the request goes on
    to verification (and, verified, unexpired and without [On-Behalf-Of], is
    authenticated as that user with that key id). *)
Theorem authenticate_requires_truthy_credential now req h keyid alg user secret :
  signature_credential parse_params req keyid alg ->
  fetch_user_data keyid alg = Ok (user, secret) ->
  (truthy user && truthy secret = false ->
   authenticate parse_params fetch_user_data fetch_on_behalf_of_user
     header_verify required_headers now req h = (Err FAILED, h)) /\
  (truthy user && truthy secret = true ->
   header_verify (headers req) secret required_headers (lower (req_method req))
     (full_path req) = Ok true ->
   expiry_passes now req ->
   ci_get (headers req) "On-Behalf-Of" = None ->
   exists h', authenticate parse_params fetch_user_data
     fetch_on_behalf_of_user header_verify required_headers now req h
     = (Ok (Some (user, Some keyid)), h')).
Proof.
  intros Hc Hu. split.
  - intros Ht. enter_credential Hc. rewrite Hu, bind_lift_ok. simpl. rewrite Ht. reflexivity.
  - intros Ht Hv Hx Ho. pass_verification Hc Hu Ht Hv. pass_expiry now req h Hx.
    rewrite Ho. eexists. reflexivity.
Qed.

(** C9: after verification and the expiry check, an [On-Behalf-Of] header
    replaces the user: a falsy lookup raises a freshly allocated
    [AuthenticationFailed("On behalf of user was not found.")], which is not
    [FAILED] (every state after module load is at least 1); a truthy one
    authenticates the impersonated user with key id [None]. *)
Theorem authenticate_on_behalf_of now req h keyid alg user secret obo :
  (1 <= h)%nat ->
  signature_credential parse_params req keyid alg ->
  fetch_user_data keyid alg = Ok (user, secret) ->
  truthy user && truthy secret = true ->
  header_verify (headers req) secret required_headers (lower (req_method req))
    (full_path req) = Ok true ->
  expiry_passes now req ->
  ci_get (headers req) "On-Behalf-Of" = Some obo ->
  (forall u, fetch_on_behalf_of_user obo = Ok u -> truthy u = false ->
   exists e h', authenticate parse_params fetch_user_data
     fetch_on_behalf_of_user header_verify required_headers now req h = (Err e, h') /\
   exn_cls e = "AuthenticationFailed" /\
   exn_msg e = "On behalf of user was not found." /\ e <> FAILED) /\
  (forall u, fetch_on_behalf_of_user obo = Ok u -> truthy u = true ->
   exists h', authenticate parse_params fetch_user_data
     fetch_on_behalf_of_user header_verify required_headers now req h
     = (Ok (Some (u, None)), h')).
Proof.
  intros H1 Hc Hu Ht Hv Hx Ho.
  split; intros u Hf Htu; pass_verification Hc Hu Ht Hv; pass_expiry now req h Hx;
    rewrite Ho, Hf, bind_lift_ok; rewrite Htu; simpl.
  - eexists _, _. split; [reflexivity|]. split; [reflexivity|]. split; [reflexivity|].
    intros E. injection E as E _ _. lia.
  - eexists. reflexivity.
Qed.

(** C10: a verified request whose [(expires)] is the integer 0 is not checked
    for expiry at all (0 is falsy): whatever the clock, without
    [On-Behalf-Of] it is authenticated. *)
Theorem authenticate_expires_zero_ignored now req h keyid alg user secret s :
  signature_credential parse_params req keyid alg ->
  fetch_user_data keyid alg = Ok (user, secret) ->
  truthy user && truthy secret = true ->
  header_verify (headers req) secret required_headers (lower (req_method req))
    (full_path req) = Ok true ->
  ci_get (headers req) "(expires)" = Some s ->
  parse_int s = Some 0%Z ->
  ci_get (headers req) "On-Behalf-Of" = None ->
  authenticate parse_params fetch_user_data fetch_on_behalf_of_user
    header_verify required_headers now req h = (Ok (Some (user, Some keyid)), h).
Proof.
  intros Hc Hu Ht Hv He Hz Ho. pass_verification Hc Hu Ht Hv.
  rewrite (bind_run _ _ h _ h (try_expires_int _ s 0%Z h He Hz)). simpl.
  rewrite Ho. reflexivity.
Qed.

(** C6: the clock is read only in the expiry comparison, which is reached only
    after verification returned true: if two clocks give different outcomes,
    the request is a [Signature] credential whose lookup gave a truthy pair and
    whose verification returned [True]. *)
Theorem authenticate_expiry_after_verification now now' req h :
  authenticate parse_params fetch_user_data fetch_on_behalf_of_user
    header_verify required_headers now req h <>
  authenticate parse_params fetch_user_data fetch_on_behalf_of_user
    header_verify required_headers now' req h ->
  exists keyid alg user secret,
    signature_credential parse_params req keyid alg /\
    fetch_user_data keyid alg = Ok (user, secret) /\
    truthy user && truthy secret = true /\
    header_verify (headers req) secret required_headers (lower (req_method req))
      (full_path req) = Ok true.
Proof.
  unfold authenticate; cbv zeta.
  destruct (String.eqb (get_authorization_header req) "") eqn:E1;
    [intros H; exfalso; apply H; reflexivity|].
  destruct (parse_authorization_header parse_params (get_authorization_header req))
    as [[scheme fields]|] eqn:P; [|intros H; exfalso; apply H; reflexivity].
  destruct (String.eqb (lower scheme) "signature") eqn:E2;
    [|intros H; exfalso; apply H; reflexivity].
  destruct (Nat.eqb (length fields) 0) eqn:E3;
    [intros H; exfalso; apply H; reflexivity|].
  destruct (missing_required fields) eqn:E4;
    [intros H; exfalso; apply H; reflexivity|].
  unfold getitem.
  destruct (ci_get fields "keyid") as [keyid|] eqn:E5;
    [|intros H; exfalso; apply H; reflexivity].
  destruct (ci_get fields "algorithm") as [alg|] eqn:E6;
    [|intros H; exfalso; apply H; reflexivity].
  rewrite !bind_ret.
  destruct (fetch_user_data keyid alg) as [[user secret]|e] eqn:E7;
    [|rewrite !bind_lift_err; intros H; exfalso; apply H; reflexivity].
  rewrite !bind_lift_ok. cbv beta iota.
  destruct (truthy user && truthy secret) eqn:E8;
    [|intros H; exfalso; apply H; reflexivity].
  destruct (header_verify (headers req) secret required_headers (lower (req_method req))
              (full_path req)) as [[|]|e] eqn:E9;
    [|rewrite !bind_lift_ok; intros H; exfalso; apply H; reflexivity
     |rewrite !bind_lift_err; intros H; exfalso; apply H; reflexivity].
  intros _. exists keyid, alg, user, secret. repeat split; auto.
  exists scheme, fields. repeat split; auto.
  - apply String.eqb_neq. exact E1.
  - apply String.eqb_eq. exact E2.
  - intros ->. discriminate.
Qed.

(** C2, as the code has it: an exception raised by [fetch_user_data], by the
    verification, or by [fetch_on_behalf_of_user] leaves [authenticate]
    unchanged: the same object propagates, it is not replaced by [FAILED]. *)
Theorem authenticate_propagates_callback_errors now req h keyid alg e :
  signature_credential parse_params req keyid alg ->
  (fetch_user_data keyid alg = Err e ->
   authenticate parse_params fetch_user_data fetch_on_behalf_of_user
     header_verify required_headers now req h = (Err e, h)) /\
  (forall user secret,
   fetch_user_data keyid alg = Ok (user, secret) ->
   truthy user && truthy secret = true ->
   header_verify (headers req) secret required_headers (lower (req_method req))
     (full_path req) = Err e ->
   authenticate parse_params fetch_user_data fetch_on_behalf_of_user
     header_verify required_headers now req h = (Err e, h)) /\
  (forall user secret obo,
   fetch_user_data keyid alg = Ok (user, secret) ->
   truthy user && truthy secret = true ->
   header_verify (headers req) secret required_headers (lower (req_method req))
     (full_path req) = Ok true ->
   expiry_passes now req ->
   ci_get (headers req) "On-Behalf-Of" = Some obo ->
   fetch_on_behalf_of_user obo = Err e ->
   exists h', authenticate parse_params fetch_user_data
     fetch_on_behalf_of_user header_verify required_headers now req h = (Err e, h')).
Proof.
  intros Hc. split; [|split].
  - intros Hu. enter_credential Hc. rewrite Hu, bind_lift_err. reflexivity.
  - intros user secret Hu Ht Hv. enter_credential Hc. rewrite Hu, bind_lift_ok. simpl.
    rewrite Ht. simpl. rewrite Hv, bind_lift_err. reflexivity.
  - intros user secret obo Hu Ht Hv Hx Ho Hf. pass_verification Hc Hu Ht Hv.
    pass_expiry now req h Hx. rewrite Ho, Hf, bind_lift_err. eexists. reflexivity.
Qed.

End Proofs.

(** ** Further properties of [authenticate] *)

Lemma ci_get_in m k v : In (k, v) m -> exists v', ci_get m k = Some v'.
Proof.
  induction m as [|[k' v'] m IH]; simpl; [contradiction|].
  intros [E|E].
  - injection E as -> ->. unfold ci_get. simpl. rewrite String.eqb_refl.
    eexists. reflexivity.
  - unfold ci_get in *. simpl.
    destruct (String.eqb (lower k') (lower k)); [eexists; reflexivity|].
    apply IH. exact E.
Qed.

(** After the check on [fields.keys()], [fields["keyid"]] and
    [fields["algorithm"]] cannot raise [KeyError]. *)
Lemma missing_required_present fields r :
  missing_required fields = false -> In r required_fields ->
  exists v, ci_get fields r = Some v.
Proof.
  unfold missing_required. intros H Hr.
  assert (Hex : existsb (String.eqb r) (map fst fields) = true).
  { destruct (existsb (String.eqb r) (map fst fields)) eqn:E; [reflexivity|].
    exfalso.
    assert (existsb (fun r => negb (existsb (String.eqb r) (map fst fields)))
              required_fields = true) as H'.
    { apply existsb_exists. exists r. rewrite E. auto. }
    congruence. }
  apply existsb_exists in Hex as (k & Hk & Heq). apply String.eqb_eq in Heq. subst k.
  apply in_map_iff in Hk as ([k v] & Hk & Hkv). simpl in Hk. subst k.
  eapply ci_get_in. exact Hkv.
Qed.

Lemma expiry_check_false now z :
  expires_truthy (Some z) && time_gt now z = false -> z = 0%Z \/ time_gt now z = false.
Proof.
  simpl. destruct (Z.eqb z 0) eqn:E; simpl.
  - left. apply Z.eqb_eq. exact E.
  - right. exact H.
Qed.

Lemma try_py_int_none h :
  try_except "TypeError" (z <- py_int None;; ret (Some z)) (ret None) h = (Ok None, S h).
Proof. reflexivity. Qed.

Lemma try_py_int_some s z h :
  parse_int s = Some z ->
  try_except "TypeError" (z <- py_int (Some s);; ret (Some z)) (ret None) h
  = (Ok (Some z), h).
Proof. intros P. unfold py_int. rewrite P. reflexivity. Qed.

Lemma try_py_int_bad s h :
  parse_int s = None ->
  try_except "TypeError" (z <- py_int (Some s);; ret (Some z)) (ret None) h
  = (Err (mkExn h "ValueError" (int_value_error_msg s)), S h).
Proof. intros P. unfold py_int. rewrite P. reflexivity. Qed.

Lemma parse_authorization_header_some pp s scheme fields :
  parse_authorization_header pp s = Some (scheme, fields) ->
  is_ascii s = true /\ fst (split_first_space s) = scheme.
Proof.
  unfold parse_authorization_header. destruct (is_ascii s); [|discriminate].
  destruct (split_first_space s) as [a b]. intros H. injection H as <- _. auto.
Qed.

Lemma parse_authorization_header_none pp s :
  parse_authorization_header pp s = None -> is_ascii s = false.
Proof.
  unfold parse_authorization_header. destruct (is_ascii s); [|reflexivity].
  destruct (split_first_space s). discriminate.
Qed.

Section Extras.

Variable parse_params : string -> list (string * string).
Variable fetch_user_data : string -> string -> result (pyval * pyval).
Variable fetch_on_behalf_of_user : string -> result pyval.
Variable header_verify :
  list (string * string) -> pyval -> list string -> string -> string -> result bool.
Variable required_headers : list string.

(** The [On-Behalf-Of] step of [authenticate]; [fin] closes each outcome. *)
Ltac obo_cases req fin :=
  destruct (ci_get (headers req) "On-Behalf-Of") as [ob|] eqn:E13; [|intro Hrun; fin];
  destruct (fetch_on_behalf_of_user ob) as [ou|oe] eqn:E14;
    [rewrite bind_lift_ok | rewrite bind_lift_err; intro Hrun; fin];
  destruct (truthy ou) eqn:E15; intro Hrun; fin.

(** Every path through [authenticate now req h], with [fin] closing each
    outcome [Hrun]. *)
Ltac auth_cases req now h fin :=
  unfold authenticate; cbv zeta;
  destruct (String.eqb (get_authorization_header req) "") eqn:E1; [intro Hrun; fin|];
  destruct (parse_authorization_header parse_params (get_authorization_header req))
    as [[sch flds]|] eqn:P; [|intro Hrun; fin];
  destruct (String.eqb (lower sch) "signature") eqn:E2; [|intro Hrun; fin];
  destruct (Nat.eqb (length flds) 0) eqn:E3; [intro Hrun; fin|];
  destruct (missing_required flds) eqn:E4; [intro Hrun; fin|];
  unfold getitem;
  destruct (missing_required_present flds "keyid" E4 ltac:(simpl; auto)) as [kid E5];
  rewrite E5;
  destruct (missing_required_present flds "algorithm" E4 ltac:(simpl; auto)) as [algo E6];
  rewrite E6; rewrite !bind_ret;
  destruct (fetch_user_data kid algo) as [[usr sec]|ex] eqn:E7;
    [rewrite bind_lift_ok; cbv beta iota | rewrite bind_lift_err; intro Hrun; fin];
  destruct (truthy usr && truthy sec) eqn:E8; [|intro Hrun; fin];
  destruct (header_verify (headers req) sec required_headers (lower (req_method req))
              (full_path req)) as [[|]|ex] eqn:E9;
    [rewrite bind_lift_ok; cbn [negb]
    | rewrite bind_lift_ok; intro Hrun; fin
    | rewrite bind_lift_err; intro Hrun; fin];
  destruct (ci_get (headers req) "(expires)") as [sv|] eqn:E10;
  [ destruct (parse_int sv) as [zv|] eqn:E11;
    [ rewrite (bind_run _ _ h _ h (try_py_int_some sv zv h E11)); cbv beta iota;
      destruct (expires_truthy (Some zv) && time_gt now zv) eqn:E12;
      [intro Hrun; fin | obo_cases req fin]
    | rewrite (bind_run_err _ _ h _ _ (try_py_int_bad sv h E11));
      intro Hrun; fin ]
  | rewrite (bind_run _ _ h _ (S h) (try_py_int_none h)); cbv beta iota;
    cbn [expires_truthy andb]; obo_cases req fin ].

(** Builds [signature_credential] from the facts gathered by [auth_cases]. *)
Ltac credential_from_cases :=
  match goal with
  | P : parse_authorization_header _ _ = Some (?scheme, ?fields) |- _ =>
      exists scheme, fields; repeat split;
      [ apply String.eqb_neq; assumption
      | exact P
      | change (lower "Signature") with "signature"; apply String.eqb_eq; assumption
      | intros ->; discriminate
      | assumption | assumption | assumption ]
  end.

Ltac expiry_from_cases :=
  first [ left; unfold expiry_passes; assumption
        | unfold expiry_passes; right; match goal with
                 | E10 : ci_get _ "(expires)" = Some ?s, E11 : parse_int ?s = Some ?z,
                   E12 : expires_truthy (Some ?z) && _ = false |- _ =>
                     exists s, z; split; [exact E10|]; split; [exact E11|];
                     apply expiry_check_false; exact E12
                 end ].

(** What a successful [authenticate] has been through. *)
Lemma authenticate_success_inv now req h u k h' :
  authenticate parse_params fetch_user_data fetch_on_behalf_of_user
    header_verify required_headers now req h = (Ok (Some (u, k)), h') ->
  exists keyid alg user secret,
    signature_credential parse_params req keyid alg /\
    fetch_user_data keyid alg = Ok (user, secret) /\
    truthy user && truthy secret = true /\
    header_verify (headers req) secret required_headers (lower (req_method req))
      (full_path req) = Ok true /\
    expiry_passes now req /\
    ((ci_get (headers req) "On-Behalf-Of" = None /\ u = user /\ k = Some keyid) \/
     (exists obo, ci_get (headers req) "On-Behalf-Of" = Some obo /\
        fetch_on_behalf_of_user obo = Ok u /\ truthy u = true /\ k = None)).
Proof.
  auth_cases req now h ltac:(
    first [ inversion Hrun; fail
          | injection Hrun; intros; subst u k h';
            exists kid, algo, usr, sec;
            split; [credential_from_cases|];
            split; [assumption|]; split; [assumption|]; split; [assumption|];
            split; [expiry_from_cases|];
            first [ solve [left; repeat split; auto] | right; eexists; repeat split; eauto ] ]).
Qed.

(** [authenticate] returns [None] only for a missing or empty
    [Authorization] header or an ASCII one with a scheme other than
    [Signature]: a [Signature] header never passes through. *)
Theorem authenticate_none_only_foreign now req h h' :
  authenticate parse_params fetch_user_data fetch_on_behalf_of_user
    header_verify required_headers now req h = (Ok None, h') ->
  get_authorization_header req = "" \/
  (is_ascii (get_authorization_header req) = true /\
   lower (fst (split_first_space (get_authorization_header req)))
     <> lower "Signature").
Proof.
  auth_cases req now h ltac:(
    first [ inversion Hrun; fail
          | injection Hrun; intros;
            first [ left; apply String.eqb_eq; assumption
                  | right; destruct (parse_authorization_header_some _ _ _ _ P) as [Ha Hf];
                    split; [exact Ha|]; rewrite Hf;
                    change (lower "Signature") with "signature";
                    apply String.eqb_neq; assumption ] ]).
Qed.

(** Every user [authenticate] returns is truthy: the looked-up user (checked
    with [user and secret]) or the impersonated one (checked with [not user]). *)
Theorem authenticate_success_user_truthy now req h u k h' :
  authenticate parse_params fetch_user_data fetch_on_behalf_of_user
    header_verify required_headers now req h = (Ok (Some (u, k)), h') ->
  truthy u = true.
Proof.
  intros Hrun.
  destruct (authenticate_success_inv _ _ _ _ _ _ Hrun)
    as (keyid & alg & user & secret & _ & _ & Ht & _ & _ & [(_ & -> & _)|(obo & _ & _ & Hu & _)]).
  - apply andb_prop in Ht. apply Ht.
  - exact Hu.
Qed.

(** A successful [authenticate] has called the verification with the looked-up
    secret, the configured required headers, the lower-cased method and the
    full path, and it returned [True]. *)
Theorem authenticate_success_verified now req h u k h' :
  authenticate parse_params fetch_user_data fetch_on_behalf_of_user
    header_verify required_headers now req h = (Ok (Some (u, k)), h') ->
  exists keyid alg user secret,
    signature_credential parse_params req keyid alg /\
    fetch_user_data keyid alg = Ok (user, secret) /\
    header_verify (headers req) secret required_headers (lower (req_method req))
      (full_path req) = Ok true.
Proof.
  intros Hrun.
  destruct (authenticate_success_inv _ _ _ _ _ _ Hrun)
    as (keyid & alg & user & secret & Hc & Hu & _ & Hv & _).
  exists keyid, alg, user, secret. auto.
Qed.

(** A successful [authenticate] has an [(expires)] header that is absent, or
    an integer literal that is 0 or not before the clock; a present
    non-integer [(expires)] never authenticates. *)
Theorem authenticate_success_not_expired now req h u k h' :
  authenticate parse_params fetch_user_data fetch_on_behalf_of_user
    header_verify required_headers now req h = (Ok (Some (u, k)), h') ->
  expiry_passes now req.
Proof.
  intros Hrun.
  destruct (authenticate_success_inv _ _ _ _ _ _ Hrun)
    as (keyid & alg & user & secret & _ & _ & _ & _ & Hx & _).
  exact Hx.
Qed.

(** An authentication with a key id happens only without [On-Behalf-Of]; the
    key id is the header's [keyid] parameter and the user is the one
    [fetch_user_data] returned for it and the header's [algorithm]. *)
Theorem authenticate_success_keyid now req h u kid h' :
  authenticate parse_params fetch_user_data fetch_on_behalf_of_user
    header_verify required_headers now req h = (Ok (Some (u, Some kid)), h') ->
  ci_get (headers req) "On-Behalf-Of" = None /\
  exists scheme fields alg secret,
    parse_authorization_header parse_params (get_authorization_header req) = Some (scheme, fields) /\
    ci_get fields "keyid" = Some kid /\
    ci_get fields "algorithm" = Some alg /\
    fetch_user_data kid alg = Ok (u, secret).
Proof.
  intros Hrun.
  destruct (authenticate_success_inv _ _ _ _ _ _ Hrun)
    as (keyid & alg & user & secret & Hc & Hu & _ & _ & _ &
        [(Ho & -> & Hk)|(obo & _ & _ & _ & Hk)]); [|discriminate].
  injection Hk as <-. split; [exact Ho|].
  destruct Hc as (scheme & fields & _ & Hp & _ & _ & _ & Hkid & Halg).
  exists scheme, fields, alg, secret. auto.
Qed.

(** An authentication with key id [None] happens only with an [On-Behalf-Of]
    header, and the user is what [fetch_on_behalf_of_user] returned for its
    value. *)
Theorem authenticate_success_impersonated now req h u h' :
  authenticate parse_params fetch_user_data fetch_on_behalf_of_user
    header_verify required_headers now req h = (Ok (Some (u, None)), h') ->
  exists obo, ci_get (headers req) "On-Behalf-Of" = Some obo /\
              fetch_on_behalf_of_user obo = Ok u.
Proof.
  intros Hrun.
  destruct (authenticate_success_inv _ _ _ _ _ _ Hrun)
    as (keyid & alg & user & secret & _ & _ & _ & _ & _ &
        [(_ & _ & Hk)|(obo & Ho & Hf & _)]); [discriminate|].
  exists obo. auto.
Qed.

(** The exceptions [authenticate] raises: [FAILED]; a new
    [AuthenticationFailed("On behalf of user was not found.")]; the
    [ValueError] of [int()] on [(expires)]; the [UnicodeDecodeError] of the
    parser's ASCII decode, for a header that is not ASCII; or an exception raised by
    [fetch_user_data], by the verification or by [fetch_on_behalf_of_user].
    In particular [KeyError] from [fields[...]] cannot happen. *)
Theorem authenticate_raised_exceptions now req h e h' :
  authenticate parse_params fetch_user_data fetch_on_behalf_of_user
    header_verify required_headers now req h = (Err e, h') ->
  e = FAILED \/
  (exists oid, (h <= oid)%nat /\ e = mkExn oid "AuthenticationFailed" ON_BEHALF_MSG) \/
  (exists s, e = mkExn h "ValueError" (int_value_error_msg s)) \/
  (is_ascii (get_authorization_header req) = false /\
   e = mkExn h "UnicodeDecodeError"
         (ascii_decode_error_msg (get_authorization_header req))) \/
  (exists keyid alg, fetch_user_data keyid alg = Err e) \/
  (exists secret, header_verify (headers req) secret required_headers
                    (lower (req_method req)) (full_path req) = Err e) \/
  (exists obo, fetch_on_behalf_of_user obo = Err e).
Proof.
  auth_cases req now h ltac:(
    first [ inversion Hrun; fail
          | injection Hrun; intros; subst e;
            first [ left; reflexivity
                  | right; left; eexists; split; [|reflexivity]; lia
                  | right; right; left; eexists; reflexivity
                  | right; right; right; left; split; [|reflexivity];
                    apply (parse_authorization_header_none parse_params); assumption
                  | right; right; right; right; left; eexists _, _; eassumption
                  | right; right; right; right; right; left; eexists; eassumption
                  | right; right; right; right; right; right; eexists; eassumption ] ]).
Qed.

(** Used unsubclassed, with a [fetch_user_data] that always raises (the base
    class raises [NotImplementedError()]), [authenticate] never authenticates:
    it returns [None], raises [FAILED], raises the hook's exception, or
    raises the parser's [UnicodeDecodeError]. *)
Theorem authenticate_base_hook_never_authenticates e now req h r h' :
  (forall keyid alg, fetch_user_data keyid alg = Err e) ->
  authenticate parse_params fetch_user_data fetch_on_behalf_of_user
    header_verify required_headers now req h = (r, h') ->
  r = Ok None \/ r = Err FAILED \/ r = Err e \/
  r = Err (mkExn h "UnicodeDecodeError"
             (ascii_decode_error_msg (get_authorization_header req))).
Proof.
  intros Hbase.
  auth_cases req now h ltac:(
    first [ rewrite Hbase in E7; discriminate E7
          | injection Hrun; intros; subst r;
            first [ left; reflexivity | right; left; reflexivity
                  | right; right; right; reflexivity
                  | right; right; left; rewrite Hbase in E7; injection E7 as ->;
                    reflexivity ] ]).
Qed.

End Extras.

(** ** The challenge header *)

Lemma string_app_nil_r (x : string) : x ++ "" = x.
Proof. induction x as [|c x IH]; simpl; [reflexivity|]. rewrite IH. reflexivity. Qed.

Lemma string_app_assoc (x y z : string) : (x ++ y) ++ z = x ++ (y ++ z).
Proof. induction x as [|c x IH]; simpl; [reflexivity|]. rewrite IH. reflexivity. Qed.

Lemma split_space_from_app cur x rest :
  ~ In " "%char (list_ascii_of_string x) ->
  split_space_from cur (x ++ rest) = split_space_from (cur ++ x) rest.
Proof.
  revert cur. induction x as [|c x IH]; intros cur Hx; simpl.
  - rewrite string_app_nil_r. reflexivity.
  - simpl in Hx. destruct (Ascii.eqb c " ") eqn:E.
    + apply Ascii.eqb_eq in E. subst c. exfalso. apply Hx. left. reflexivity.
    + rewrite IH by (intros H; apply Hx; right; exact H).
      rewrite string_app_assoc. reflexivity.
Qed.

(** The [headers] parameter of the challenge is [" ".join(required_headers)];
    splitting it at spaces gives back [required_headers] when that list is
    non-empty and no name contains a space. *)
Theorem authenticate_header_headers_roundtrip realm required_headers :
  required_headers <> [] ->
  Forall (fun x => ~ In " "%char (list_ascii_of_string x)) required_headers ->
  authenticate_header realm required_headers =
    "Signature realm=" ++ dq ++ realm ++ dq ++ ",headers=" ++ dq ++
    py_join " " required_headers ++ dq /\
  py_split_space (py_join " " required_headers) = required_headers.
Proof.
  intros Hne Hall. split; [reflexivity|].
  unfold py_split_space.
  induction Hall as [|x l Hx Hl IH]; [congruence|].
  destruct l as [|y l].
  - simpl. rewrite <- (string_app_nil_r x) at 1.
    rewrite split_space_from_app by exact Hx. reflexivity.
  - change (py_join " " (x :: y :: l)) with (x ++ " " ++ py_join " " (y :: l)).
    rewrite split_space_from_app by exact Hx.
    change (split_space_from ("" ++ x) (" " ++ py_join " " (y :: l)))
      with (("" ++ x) :: split_space_from "" (py_join " " (y :: l))).
    rewrite IH by discriminate. reflexivity.
Qed.

(** ** Concrete runs *)

Lemma scenario_full_credential extra :
  signature_credential Scenario.parse_params (Scenario.req extra "Signature full")
    "some-key" "hmac-sha256".
Proof.
  exists "Signature", Scenario.full_fields.
  unfold get_authorization_header. simpl.
  repeat split; try reflexivity; discriminate.
Qed.

Lemma scenario_badkey_credential extra :
  signature_credential Scenario.parse_params (Scenario.req extra "Signature badkey")
    "other-key" "hmac-sha256".
Proof.
  exists "Signature",
    [("keyid", "other-key"); ("algorithm", "hmac-sha256"); ("signature", "c2lnbmF0dXJl")].
  unfold get_authorization_header. simpl.
  repeat split; try reflexivity; discriminate.
Qed.

(** C1 fails as stated: [FAILED] is mutated by every rejection. After module
    load its [__traceback__] is [None]; one rejected request (verification
    fails) leaves it with one entry, a second one with two. *)
Lemma failed_traceback_extended :
  tb_len after_module_load (exn_oid FAILED) = 0%nat /\
  fst (Scenario.call_run (Scenario.req [] "Signature full") after_module_load)
    = Err FAILED /\
  tb_len (snd (Scenario.call_run (Scenario.req [] "Signature full") after_module_load))
    (exn_oid FAILED) = 1%nat /\
  tb_len (snd (Scenario.call_run (Scenario.req [] "Signature full")
                 (snd (Scenario.call_run (Scenario.req [] "Signature full")
                         after_module_load))))
    (exn_oid FAILED) = 2%nat.
Proof. vm_compute. repeat split. Qed.


(** C2 fails as stated: the test suite's [fetch_user_data] raises its own
    [AuthenticationFailed('Bad key ID')] for an unknown key, and that object,
    not [FAILED], leaves [authenticate]. *)
Lemma callback_error_not_folded :
  Scenario.run Scenario.fetch_user_data_raising
    (Scenario.req [("X-Valid", "1")] "Signature badkey")
  = (Err Scenario.bad_key_exn, 1%nat) /\
  Scenario.bad_key_exn <> FAILED.
Proof.
  split; [reflexivity|].
  intros E. apply (f_equal exn_msg) in E. discriminate.
Qed.

(** C7: a verified request whose [(expires)] is 0, a time long past, is not
    rejected: [if expires and time.time() > expires] skips the comparison for
    the falsy int 0. *)
Theorem expires_epoch_zero_not_rejected :
  time_gt Scenario.now 0 = true /\
  Scenario.run Scenario.fetch_user_data
    (Scenario.req [("X-Valid", "1"); ("(expires)", "0")] "Signature full")
  = (Ok (Some (Scenario.user, Some "some-key")), 1%nat).
Proof. split; reflexivity. Qed.

(** C8: a verified request whose [(expires)] is not an integer makes [int()]
    raise [ValueError], which [except TypeError] does not catch: the
    [ValueError] leaves [authenticate]. *)
Theorem expires_non_numeric_raises :
  Scenario.run Scenario.fetch_user_data
    (Scenario.req [("X-Valid", "1"); ("(expires)", "soon")] "Signature full")
  = (Err (mkExn 1 "ValueError" (int_value_error_msg "soon")), 2%nat).
Proof. reflexivity. Qed.

(** ** Witnesses: the theorems applied to the concrete deployment *)




Lemma authenticate_requires_truthy_credential_witness :
  Scenario.run Scenario.fetch_user_data (Scenario.req [] "Signature badkey")
  = (Err FAILED, 1%nat) /\
  exists h', Scenario.run Scenario.fetch_user_data
               (Scenario.req [("X-Valid", "1")] "Signature full")
             = (Ok (Some (Scenario.user, Some "some-key")), h').
Proof.
  split.
  - apply (proj1 (authenticate_requires_truthy_credential Scenario.parse_params
             Scenario.fetch_user_data Scenario.fetch_on_behalf_of_user
             Scenario.header_verify Scenario.required_headers Scenario.now
             (Scenario.req [] "Signature badkey") 1%nat
             "other-key" "hmac-sha256" PNone PNone
             (scenario_badkey_credential []) eq_refl)).
    reflexivity.
  - apply (proj2 (authenticate_requires_truthy_credential Scenario.parse_params
             Scenario.fetch_user_data Scenario.fetch_on_behalf_of_user
             Scenario.header_verify Scenario.required_headers Scenario.now
             (Scenario.req [("X-Valid", "1")] "Signature full") 1%nat
             "some-key" "hmac-sha256" Scenario.user (PStr "my secret string")
             (scenario_full_credential _) eq_refl)).
    + reflexivity.
    + reflexivity.
    + left. reflexivity.
    + reflexivity.
Defined.

Lemma authenticate_expiry_after_verification_witness :
  exists keyid alg user secret,
    signature_credential Scenario.parse_params
      (Scenario.req [("X-Valid", "1"); ("(expires)", "1577847600")] "Signature full")
      keyid alg /\
    Scenario.fetch_user_data keyid alg = Ok (user, secret) /\
    truthy user && truthy secret = true /\
    Scenario.header_verify
      (headers (Scenario.req [("X-Valid", "1"); ("(expires)", "1577847600")] "Signature full"))
      secret Scenario.required_headers "get" "/packages/measures/" = Ok true.
Proof.
  apply (authenticate_expiry_after_verification Scenario.parse_params Scenario.fetch_user_data
           Scenario.fetch_on_behalf_of_user Scenario.header_verify Scenario.required_headers
           Scenario.now (inject_Z 0)
           (Scenario.req [("X-Valid", "1"); ("(expires)", "1577847600")] "Signature full")
           1%nat).
  vm_compute. discriminate.
Defined.

Lemma authenticate_on_behalf_of_witness :
  (exists e h', Scenario.run Scenario.fetch_user_data
     (Scenario.req [("X-Valid", "1"); ("On-Behalf-Of", "7")] "Signature full")
   = (Err e, h') /\
   exn_cls e = "AuthenticationFailed" /\
   exn_msg e = "On behalf of user was not found." /\ e <> FAILED) /\
  (exists h', Scenario.run Scenario.fetch_user_data
     (Scenario.req [("X-Valid", "1"); ("On-Behalf-Of", "42")] "Signature full")
   = (Ok (Some (Scenario.impersonated, None)), h')).
Proof.
  split.
  - apply (proj1 (authenticate_on_behalf_of Scenario.parse_params Scenario.fetch_user_data
             Scenario.fetch_on_behalf_of_user Scenario.header_verify Scenario.required_headers
             Scenario.now
             (Scenario.req [("X-Valid", "1"); ("On-Behalf-Of", "7")] "Signature full") 1%nat
             "some-key" "hmac-sha256" Scenario.user (PStr "my secret string") "7"
             ltac:(lia) (scenario_full_credential _) eq_refl eq_refl eq_refl
             ltac:(left; reflexivity) eq_refl) PNone).
    + reflexivity.
    + reflexivity.
  - apply (proj2 (authenticate_on_behalf_of Scenario.parse_params Scenario.fetch_user_data
             Scenario.fetch_on_behalf_of_user Scenario.header_verify Scenario.required_headers
             Scenario.now
             (Scenario.req [("X-Valid", "1"); ("On-Behalf-Of", "42")] "Signature full") 1%nat
             "some-key" "hmac-sha256" Scenario.user (PStr "my secret string") "42"
             ltac:(lia) (scenario_full_credential _) eq_refl eq_refl eq_refl
             ltac:(left; reflexivity) eq_refl) Scenario.impersonated).
    + reflexivity.
    + reflexivity.
Defined.

Lemma authenticate_expires_zero_ignored_witness :
  Scenario.run Scenario.fetch_user_data
    (Scenario.req [("X-Valid", "1"); ("(expires)", "0")] "Signature full")
  = (Ok (Some (Scenario.user, Some "some-key")), 1%nat).
Proof.
  apply (authenticate_expires_zero_ignored Scenario.parse_params Scenario.fetch_user_data
           Scenario.fetch_on_behalf_of_user Scenario.header_verify Scenario.required_headers
           Scenario.now
           (Scenario.req [("X-Valid", "1"); ("(expires)", "0")] "Signature full") 1%nat
           "some-key" "hmac-sha256"
           Scenario.user (PStr "my secret string") "0").
  - apply scenario_full_credential.
  - reflexivity.
  - reflexivity.
  - reflexivity.
  - reflexivity.
  - reflexivity.
  - reflexivity.
Defined.

Lemma authenticate_propagates_callback_errors_witness :
  Scenario.run Scenario.fetch_user_data_raising
    (Scenario.req [("X-Valid", "1")] "Signature badkey")
  = (Err Scenario.bad_key_exn, 1%nat).
Proof.
  apply (authenticate_propagates_callback_errors Scenario.parse_params
           Scenario.fetch_user_data_raising
           Scenario.fetch_on_behalf_of_user Scenario.header_verify Scenario.required_headers
           Scenario.now (Scenario.req [("X-Valid", "1")] "Signature badkey") 1%nat
           "other-key" "hmac-sha256" Scenario.bad_key_exn).
  - apply scenario_badkey_credential.
  - reflexivity.
Defined.

(** ** Witnesses of the further properties *)

Lemma authenticate_none_only_foreign_witness :
  get_authorization_header (Scenario.req [] "Basic full") = "" \/
  (is_ascii (get_authorization_header (Scenario.req [] "Basic full")) = true /\
   lower (fst (split_first_space (get_authorization_header (Scenario.req [] "Basic full"))))
     <> lower "Signature").
Proof.
  apply (authenticate_none_only_foreign Scenario.parse_params Scenario.fetch_user_data Scenario.fetch_on_behalf_of_user
           Scenario.header_verify Scenario.required_headers Scenario.now
           (Scenario.req [] "Basic full") 1%nat 1%nat).
  reflexivity.
Defined.

Lemma authenticate_success_user_truthy_witness : truthy Scenario.user = true.
Proof.
  apply (authenticate_success_user_truthy Scenario.parse_params Scenario.fetch_user_data Scenario.fetch_on_behalf_of_user
           Scenario.header_verify Scenario.required_headers Scenario.now
           (Scenario.req [("X-Valid", "1")] "Signature full") 1%nat Scenario.user (Some "some-key") 2%nat).
  reflexivity.
Defined.

Lemma authenticate_success_verified_witness :
  exists keyid alg user secret,
    signature_credential Scenario.parse_params (Scenario.req [("X-Valid", "1")] "Signature full") keyid alg /\
    Scenario.fetch_user_data keyid alg = Ok (user, secret) /\
    Scenario.header_verify (headers (Scenario.req [("X-Valid", "1")] "Signature full")) secret Scenario.required_headers
      (lower (req_method (Scenario.req [("X-Valid", "1")] "Signature full"))) (full_path (Scenario.req [("X-Valid", "1")] "Signature full")) = Ok true.
Proof.
  apply (authenticate_success_verified Scenario.parse_params Scenario.fetch_user_data Scenario.fetch_on_behalf_of_user
           Scenario.header_verify Scenario.required_headers Scenario.now
           (Scenario.req [("X-Valid", "1")] "Signature full") 1%nat Scenario.user (Some "some-key") 2%nat).
  reflexivity.
Defined.

Lemma authenticate_success_not_expired_witness :
  expiry_passes Scenario.now
    (Scenario.req [("X-Valid", "1"); ("(expires)", "1800000000")] "Signature full").
Proof.
  apply (authenticate_success_not_expired Scenario.parse_params Scenario.fetch_user_data Scenario.fetch_on_behalf_of_user
           Scenario.header_verify Scenario.required_headers Scenario.now
           (Scenario.req [("X-Valid", "1"); ("(expires)", "1800000000")] "Signature full")
           1%nat Scenario.user (Some "some-key") 1%nat).
  reflexivity.
Defined.

Lemma authenticate_success_keyid_witness :
  ci_get (headers (Scenario.req [("X-Valid", "1")] "Signature full")) "On-Behalf-Of" = None /\
  exists scheme fields alg secret,
    parse_authorization_header Scenario.parse_params
      (get_authorization_header (Scenario.req [("X-Valid", "1")] "Signature full"))
    = Some (scheme, fields) /\
    ci_get fields "keyid" = Some "some-key" /\
    ci_get fields "algorithm" = Some alg /\
    Scenario.fetch_user_data "some-key" alg = Ok (Scenario.user, secret).
Proof.
  apply (authenticate_success_keyid Scenario.parse_params Scenario.fetch_user_data Scenario.fetch_on_behalf_of_user
           Scenario.header_verify Scenario.required_headers Scenario.now
           (Scenario.req [("X-Valid", "1")] "Signature full") 1%nat Scenario.user "some-key" 2%nat).
  reflexivity.
Defined.

Lemma authenticate_success_impersonated_witness :
  exists obo,
    ci_get (headers (Scenario.req [("X-Valid", "1"); ("On-Behalf-Of", "42")] "Signature full"))
      "On-Behalf-Of" = Some obo /\
    Scenario.fetch_on_behalf_of_user obo = Ok Scenario.impersonated.
Proof.
  apply (authenticate_success_impersonated Scenario.parse_params Scenario.fetch_user_data Scenario.fetch_on_behalf_of_user
           Scenario.header_verify Scenario.required_headers Scenario.now
           (Scenario.req [("X-Valid", "1"); ("On-Behalf-Of", "42")] "Signature full")
           1%nat Scenario.impersonated 2%nat).
  reflexivity.
Defined.

Lemma authenticate_raised_exceptions_witness :
  let e := mkExn 2 "AuthenticationFailed" ON_BEHALF_MSG in
  e = FAILED \/
  (exists oid, (1 <= oid)%nat /\ e = mkExn oid "AuthenticationFailed" ON_BEHALF_MSG) \/
  (exists s, e = mkExn 1 "ValueError" (int_value_error_msg s)) \/
  (is_ascii (get_authorization_header
     (Scenario.req [("X-Valid", "1"); ("On-Behalf-Of", "7")] "Signature full")) = false /\
   e = mkExn 1 "UnicodeDecodeError" (ascii_decode_error_msg (get_authorization_header
     (Scenario.req [("X-Valid", "1"); ("On-Behalf-Of", "7")] "Signature full")))) \/
  (exists keyid alg, Scenario.fetch_user_data keyid alg = Err e) \/
  (exists secret, Scenario.header_verify
     (headers (Scenario.req [("X-Valid", "1"); ("On-Behalf-Of", "7")] "Signature full"))
     secret Scenario.required_headers "get" "/packages/measures/" = Err e) \/
  (exists obo, Scenario.fetch_on_behalf_of_user obo = Err e).
Proof.
  apply (authenticate_raised_exceptions Scenario.parse_params Scenario.fetch_user_data Scenario.fetch_on_behalf_of_user
           Scenario.header_verify Scenario.required_headers Scenario.now
           (Scenario.req [("X-Valid", "1"); ("On-Behalf-Of", "7")] "Signature full")
           1%nat (mkExn 2 "AuthenticationFailed" ON_BEHALF_MSG) 3%nat).
  reflexivity.
Defined.

Definition not_implemented : exn := mkExn 5 "NotImplementedError" "".

Lemma authenticate_base_hook_never_authenticates_witness :
  Err (A := option (pyval * option string)) not_implemented = Ok None \/
  Err (A := option (pyval * option string)) not_implemented = Err FAILED \/
  Err (A := option (pyval * option string)) not_implemented = Err not_implemented \/
  Err (A := option (pyval * option string)) not_implemented
  = Err (mkExn 1 "UnicodeDecodeError" (ascii_decode_error_msg
           (get_authorization_header (Scenario.req [("X-Valid", "1")] "Signature full")))).
Proof.
  apply (authenticate_base_hook_never_authenticates Scenario.parse_params
           (base_fetch_user_data not_implemented)
           (base_fetch_on_behalf_of_user not_implemented)
           Scenario.header_verify required_headers_default not_implemented Scenario.now
           (Scenario.req [("X-Valid", "1")] "Signature full") 1%nat (Err not_implemented) 1%nat).
  - intros keyid alg. reflexivity.
  - reflexivity.
Defined.

Lemma authenticate_header_headers_roundtrip_witness :
  authenticate_header www_authenticate_realm_default required_headers_default =
    "Signature realm=" ++ dq ++ www_authenticate_realm_default ++ dq ++ ",headers=" ++ dq ++
    py_join " " required_headers_default ++ dq /\
  py_split_space (py_join " " required_headers_default) = required_headers_default.
Proof.
  apply authenticate_header_headers_roundtrip.
  - discriminate.
  - repeat constructor; simpl; intros H; repeat destruct H as [H|H]; try discriminate H;
      contradiction.
Defined.
